(** * Speech Confidence Coach: session state, placeholder analysis,
      feedback schema and the speech-metrics extractor

    The development follows the repository file by file.

    - [App] embeds [src/app.py]: the Streamlit session state is a finite
      map from attribute names to Python values, and the two functions that
      touch it, [init_session_state] and [analyze_audio], are state
      transformers over it.
    - [Feedback] embeds the pydantic model [CoachingFeedback] of
      [tests/test_openai.py] as a validation function over keyword
      arguments.
    - [Metrics] holds the speech-metrics extractor.  The repository has no
      implementation of it; its definitions are modelled from section 4.1
      of the specification and are marked as such. *)

From Stdlib Require Import QArith Ascii String.
From stdpp Require Import gmap strings list pretty.

Open Scope string_scope.
Set Warnings "-register-all,-clear-no-such-hyp".

(** ** Python values *)

(** The fragment of Python values that the session state and the keyword
    arguments of the feedback model hold.  A [dict] literal is kept as an
    association list in insertion order. *)
Inductive value : Type :=
| VNone
| VBool (b : bool)
| VInt (z : Z)
| VFloat (q : Q)
| VStr (s : string)
| VBytes (data : list Byte.byte)
| VList (items : list value)
| VDict (entries : list (string * value)).

(** [d[k]] on a dict value; [None] stands for [KeyError] or a non-dict. *)
Fixpoint assoc (k : string) (entries : list (string * value)) : option value :=
  match entries with
  | [] => None
  | (k', v) :: rest => if decide (k = k') then Some v else assoc k rest
  end.

Definition getitem (v : value) (k : string) : option value :=
  match v with
  | VDict entries => assoc k entries
  | _ => None
  end.

(** Results of fallible operations. *)
Inductive result (E A : Type) : Type :=
| Ok (a : A)
| Err (e : E).
Arguments Ok {E A} a.
Arguments Err {E A} e.

Module App.

(** *** Session state *)

(** [st.session_state]: attribute name to value.  A key that is present
    and holds [None] is [Some VNone]; an absent key is [None]. *)
Abbreviation session_state := (gmap string value).

(** The three attributes that [init_session_state] manages. *)
Definition managed_keys : list string :=
  ["current_session"; "analysis_results"; "audio_file"].

(** [init_session_state], app.py lines 19-26. *)
Definition init_session_state (st : session_state) : session_state :=
  let st :=
    match st !! "current_session" with
    | None => <["current_session" := VNone]> st
    | Some _ => st
    end in
  let st :=
    match st !! "analysis_results" with
    | None => <["analysis_results" := VNone]> st
    | Some _ => st
    end in
  match st !! "audio_file" with
  | None => <["audio_file" := VNone]> st
  | Some _ => st
  end.

(** *** Clock and user-interface effects *)

(** The reading of [datetime.now()]. *)
Record datetime : Type := {
  year : N; month : N; day : N; hour : N; minute : N; second : N
}.

(** Left-pad a decimal numeral with zeros to [width] characters. *)
Definition zero_pad (width : nat) (n : N) : string :=
  let digits := pretty n in
  String.concat "" (replicate (width - String.length digits) "0") +:+ digits.

(** [strftime('%Y%m%d_%H%M%S')]. *)
Definition strftime_session (now : datetime) : string :=
  zero_pad 4 (year now) +:+ zero_pad 2 (month now) +:+ zero_pad 2 (day now)
  +:+ "_" +:+
  zero_pad 2 (hour now) +:+ zero_pad 2 (minute now) +:+ zero_pad 2 (second now).

(** What the script does, in order; attribute writes are logged too. *)
Inductive effect : Type :=
| SpinnerEnter (msg : string)
| Sleep (seconds : Z)
| SetAttr (key : string) (v : value)
| Success (msg : string)
| SpinnerExit
| Rerun.

Record world : Type := {
  state : session_state;
  effects : list effect
}.

Definition emit (e : effect) (w : world) : world :=
  {| state := state w; effects := effects w ++ [e] |}.

Definition setattr (k : string) (v : value) (w : world) : world :=
  {| state := <[k := v]> (state w); effects := effects w ++ [SetAttr k v] |}.

(** The dictionary literal of app.py lines 130-164. *)
Definition placeholder_results : value :=
  VDict [
    ("transcript", VStr "Um, so I think my biggest strength is, uh, definitely problem-solving. I really enjoy, like, working through complex challenges and finding creative solutions. You know, in my previous role...");
    ("metrics", VDict [
       ("words_per_minute", VInt 145);
       ("filler_count", VInt 8);
       ("filler_rate", VFloat (52 # 10));
       ("average_pause", VFloat (8 # 10));
       ("long_pauses", VInt 3);
       ("total_duration", VInt 92) ]);
    ("scores", VDict [
       ("pace", VInt 4);
       ("clarity", VInt 3);
       ("fluency", VInt 2);
       ("conciseness", VInt 3);
       ("overall", VInt 3) ]);
    ("feedback", VDict [
       ("strengths", VList [
          VStr "Good speaking pace - not too fast or slow";
          VStr "Clear articulation and pronunciation";
          VStr "Confident tone throughout response" ]);
       ("improvements", VList [
          VStr "Reduce filler words ('um', 'uh', 'like') - found 8 instances";
          VStr "Minimize long pauses to maintain flow";
          VStr "Structure response more clearly with specific examples" ]);
       ("practice_drills", VList [
          VStr "Re-record this response in under 60 seconds without filler words";
          VStr "Practice the STAR method: Situation, Task, Action, Result";
          VStr "Record yourself reading for 2 minutes to improve fluency" ]) ])
  ].

(** [analyze_audio], app.py lines 117-168.  [now] is what [datetime.now()]
    returns at line 166.  [st.rerun()] ends the script run, so nothing
    follows it and the spinner block is left through the exception. *)
Definition analyze_audio (now : datetime) (w : world) : world :=
  let w := emit (SpinnerEnter "Analyzing your speech... This may take a moment.") w in
  let w := emit (Sleep 2) w in
  let w := setattr "analysis_results" placeholder_results w in
  let w := setattr "current_session"
             (VStr ("session_" +:+ strftime_session now)) w in
  let w := emit (Success "✅ Analysis complete!") w in
  let w := emit Rerun w in
  emit SpinnerExit w.

(** Two clock readings one second apart and a session holding a recording. *)
Definition noon : datetime :=
  {| year := 2024; month := 1; day := 15; hour := 12; minute := 0; second := 0 |}.

Definition noon_and_a_second : datetime :=
  {| year := 2024; month := 1; day := 15; hour := 12; minute := 0; second := 1 |}.

Definition recorded : world :=
  {| state := <["audio_file" := VBytes [Byte.x52; Byte.x49; Byte.x46; Byte.x46]]>
                (init_session_state ∅);
     effects := [] |}.

End App.

Module Feedback.

(** *** The pydantic model [CoachingFeedback], test_openai.py lines 13-18 *)













End Feedback.

Module Metrics.

(** *** Data model (specification, section 3) *)

(** Modelled from the spec: the repository has no [Word] type; section 3
    gives its three fields.  Seconds are exact rationals, so the rounding
    of floating-point arithmetic is outside the model. *)
Record Word : Type := {
  text : string;
  start : Q;
  end_ : Q
}.

(** Modelled from the spec: [Transcript], the ordered words plus the full
    concatenated text. *)
Record Transcript : Type := {
  words : list Word;
  full_text : string
}.

(** Modelled from the spec: [PauseInterval], the gap between the end of one
    word and the start of the next. *)
Record PauseInterval : Type := {
  pause_start : Q;
  pause_end : Q;
  duration : Q
}.

(** Modelled from the spec: [MetricsReport], the output aggregate. *)
Record MetricsReport : Type := {
  words_per_minute : Q;
  filler_count : nat;
  filler_rate_per_minute : Q;
  average_pause_seconds : Q;
  long_pause_count : nat;
  total_duration_seconds : Q
}.

(** Modelled from the spec: [InvalidInput] is the error of section 7;
    [ZeroDivisionError] is what a division by zero raises when nothing
    guards it. *)
Inductive Error : Type :=
| InvalidInput
| ZeroDivisionError.

#[global] Instance result_ret {E} : MRet (result E) := λ A a, Ok a.
#[global] Instance result_bind {E} : MBind (result E) := λ A B f m,
  match m with
  | Ok a => f a
  | Err e => Err e
  end.

(** Modelled from the spec: division as section 4.1 speaks of it, an
    operation that fails on a zero divisor unless guarded. *)
Definition checked_div (a b : Q) : result Error Q :=
  if Qeq_bool b 0 then Err ZeroDivisionError else Ok (a / b)%Q.

Definition Q_of_nat (n : nat) : Q := inject_Z (Z.of_nat n).

(** *** Word normalisation and filler detection *)

Definition lower (c : ascii) : ascii :=
  let n := N_of_ascii c in
  if ((65 <=? n) && (n <=? 90))%N then ascii_of_N (n + 32) else c.

Definition is_punctuation (c : ascii) : bool :=
  let n := N_of_ascii c in
  (((33 <=? n) && (n <=? 47)) || ((58 <=? n) && (n <=? 64)) ||
   ((91 <=? n) && (n <=? 96)) || ((123 <=? n) && (n <=? 126)))%N.

(** Modelled from the spec: a word's normalised text is "lowercased,
    punctuation-stripped". *)
Fixpoint normalize (s : string) : string :=
  match s with
  | EmptyString => EmptyString
  | String c rest =>
      if is_punctuation c then normalize rest
      else String (lower c) (normalize rest)
  end.

Fixpoint is_prefix (phrase tokens : list string) : bool :=
  match phrase, tokens with
  | [], _ => true
  | _ :: _, [] => false
  | p :: phrase', t :: tokens' => bool_decide (p = t) && is_prefix phrase' tokens'
  end.

(** Modelled from the spec: the number of words covered by the longest
    lexicon entry that matches at the head of [tokens]; 0 when no entry
    matches.  A multi-word entry such as "you know" is a window over
    consecutive words. *)
Definition match_length (filler_lexicon : gset string) (tokens : list string) : nat :=
  set_fold (λ entry best,
              let phrase := String.words entry in
              if is_prefix phrase tokens then Nat.max (length phrase) best
              else best)
           0%nat filler_lexicon.

(** Modelled from the spec: [filler_count] is the "number of matched
    occurrences (non-overlapping, greedy left-to-right)".  [skip] is the
    number of words still covered by the last match. *)
Fixpoint count_fillers (filler_lexicon : gset string) (skip : nat)
    (tokens : list string) : nat :=
  match tokens with
  | [] => 0
  | _ :: rest =>
      match skip with
      | S k => count_fillers filler_lexicon k rest
      | O =>
          match match_length filler_lexicon tokens with
          | O => count_fillers filler_lexicon 0 rest
          | S k => S (count_fillers filler_lexicon k rest)
          end
      end
  end.

(** *** Pauses *)

(** Modelled from the spec: negative gaps "are clamped to 0". *)
Definition clamp0 (q : Q) : Q := if Qle_bool 0 q then q else 0%Q.

(** Modelled from the spec: one [PauseInterval] per consecutive word pair,
    of duration [next.start - prev.end], negative values clamped to 0. *)
Fixpoint pause_intervals (ws : list Word) : list PauseInterval :=
  match ws with
  | [] => []
  | prev :: rest =>
      match rest with
      | [] => []
      | next :: _ =>
          {| pause_start := end_ prev;
             pause_end := start next;
             duration := clamp0 (start next - end_ prev) |}
          :: pause_intervals rest
      end
  end.

(** Modelled from the spec: a clamped or empty gap does "not count as a
    pause". *)
Definition counts_as_pause (p : PauseInterval) : bool :=
  negb (Qeq_bool (duration p) 0).

Definition pauses (ws : list Word) : list PauseInterval :=
  List.filter counts_as_pause (pause_intervals ws).

Definition Qsum (l : list Q) : Q := foldr Qplus 0%Q l.

(** Modelled from the spec: "arithmetic mean over all non-zero pauses (0 if
    none exist)". *)
Definition average_pause (ps : list PauseInterval) : result Error Q :=
  match ps with
  | [] => Ok 0%Q
  | _ :: _ => checked_div (Qsum (duration <$> ps)) (Q_of_nat (length ps))
  end.

(** Modelled from the spec: a pause of exactly the threshold is long
    (section 8, the inclusive boundary). *)
Definition is_long (long_pause_threshold : Q) (p : PauseInterval) : bool :=
  Qle_bool long_pause_threshold (duration p).

Definition long_pauses (long_pause_threshold : Q) (ws : list Word)
  : list PauseInterval :=
  List.filter (is_long long_pause_threshold) (pauses ws).

Definition default_long_pause_threshold : Q := 1.

(** *** Rates *)

(** Modelled from the spec: [word_count / (total_duration_seconds / 60)],
    and 0 "if total_duration_seconds is 0 or transcript is empty". *)
Definition compute_words_per_minute (ws : list Word) (total_duration_seconds : Q)
  : result Error Q :=
  if Qeq_bool total_duration_seconds 0 then Ok 0%Q
  else match ws with
       | [] => Ok 0%Q
       | _ :: _ => checked_div (Q_of_nat (length ws)) (total_duration_seconds / 60)
       end.

(** Modelled from the spec: [filler_count / (total_duration_seconds / 60)],
    "same zero-duration guard". *)
Definition compute_filler_rate (count : nat) (total_duration_seconds : Q)
  : result Error Q :=
  if Qeq_bool total_duration_seconds 0 then Ok 0%Q
  else checked_div (Q_of_nat count) (total_duration_seconds / 60).

(** *** The operation *)


(** Modelled from the spec: [end >= start], the contract of a [Word]. *)
Definition well_formed (w : Word) : Prop := (start w <= end_ w)%Q.

(** Modelled from the spec: [end < start], the second failure condition. *)
Definition malformed (w : Word) : bool := negb (Qle_bool (start w) (end_ w)).

(** Modelled from the spec: [compute_metrics] of section 4.1, which the
    repository does not implement.  The two failure conditions are checked
    before anything is computed (section 7: the computation "fails
    atomically before any output is returned"). *)
Definition compute_metrics (transcript : Transcript) (total_duration_seconds : Q)
    (filler_lexicon : gset string) (long_pause_threshold : Q)
  : result Error MetricsReport :=
  if negb (Qle_bool 0 total_duration_seconds) then Err InvalidInput
  else if existsb malformed (words transcript) then Err InvalidInput
  else
    let ws := words transcript in
    let fillers := count_fillers filler_lexicon 0 (normalize ∘ text <$> ws) in
    wpm ← compute_words_per_minute ws total_duration_seconds;
    rate ← compute_filler_rate fillers total_duration_seconds;
    avg ← average_pause (pauses ws);
    mret {| words_per_minute := wpm;
            filler_count := fillers;
            filler_rate_per_minute := rate;
            average_pause_seconds := avg;
            long_pause_count := length (long_pauses long_pause_threshold ws);
            total_duration_seconds := total_duration_seconds |}.

(** The two scenarios of section 8. *)
Definition scenario_words : list Word :=
  [ {| text := "um";    start := 0;        end_ := 2 # 10 |};
    {| text := "I";     start := 3 # 10;   end_ := 5 # 10 |};
    {| text := "think"; start := 6 # 10;   end_ := 8 # 10 |};
    {| text := "uh";    start := 9 # 10;   end_ := 11 # 10 |};
    {| text := "it's";  start := 12 # 10;  end_ := 14 # 10 |};
    {| text := "good";  start := 15 # 10;  end_ := 17 # 10 |} ].

Definition scenario_transcript : Transcript :=
  {| words := scenario_words; full_text := "um I think uh it's good" |}.

Definition scenario_lexicon : gset string := {["um"; "uh"]}.



(** Two words one second apart: the gap equals the default threshold. *)
Definition boundary_transcript : Transcript :=
  {| words := [ {| text := "hello"; start := 0; end_ := 1 |};
                {| text := "world"; start := 2; end_ := 3 |} ];
     full_text := "hello world" |}.

End Metrics.


Module Script.

Import App.

(** *** One run of the Streamlit script, app.py lines 28-347

    Streamlit re-executes the script from the top on every interaction.  A
    run reads the widgets (the values the user entered), reads and writes
    [st.session_state], renders elements, and ends normally, by a rerun
    request, by a page switch or by an uncaught exception. *)

(** The exceptions that the dynamic typing of the script can raise. *)
Inductive exn : Type :=
| AttributeError
| KeyError
| TypeError
| ValueError.

(** A piece of a rendered text: a literal, [{v}], [{v:.1f}], or raw bytes
    handed to the audio player. *)
Inductive fragment : Type :=
| Lit (s : string)
| Show (v : value)
| Fixed1 (v : value)
| Raw (data : list Byte.byte).

Abbreviation text := (list fragment).

(** A call on [st] or [st.sidebar] with its arguments in source order, or
    an effect of the analysis step.  Keyword arguments that only style an
    element ([help], [type="primary"], [use_container_width], [expanded])
    are not recorded, nor is the column or expander a call is placed in. *)
Inductive event : Type :=
| Ui (fn : string) (args : list text)
| Eff (e : effect).

(** How a run ends early. *)
Inductive stop : Type :=
| RerunRequested
| SwitchPage (page : string)
| Raise (e : exn).

Record store : Type := {
  session : gmap string value;
  log : list event
}.

(** What the widgets return in one run.  A button flag is consulted only
    where the button is rendered. *)
Record inputs : Type := {
  page : string;
  audio_recording : option (list Byte.byte);
  uploaded_file : option (list Byte.byte);
  analyze_clicked : bool;
  analyze_another_clicked : bool;
  save_session_clicked : bool;
  view_history_clicked : bool;
  selected_category : string;
  save_settings_clicked : bool
}.

(** The two readings of [datetime.now()] a run can take: line 44 in the
    sidebar and line 166 in the analysis. *)
Record clock : Type := {
  at_sidebar : datetime;
  at_analysis : datetime
}.

(** Script computations: state that survives an early stop. *)
Definition M (A : Type) : Type := store → store * result stop A.

#[global] Instance M_ret : MRet M := λ A a s, (s, Ok a).
#[global] Instance M_bind : MBind M := λ A B f m s,
  match m s with
  | (s', Ok a) => f a s'
  | (s', Err e) => (s', Err e)
  end.

Definition ui (fn : string) (args : list text) : M unit := λ s,
  ({| session := session s; log := log s ++ [Ui fn args] |}, Ok tt).

Definition halt {A : Type} (e : stop) : M A := λ s, (s, Err e).

Definition lift {A : Type} (r : result exn A) : M A :=
  match r with
  | Ok a => mret a
  | Err e => halt (Raise e)
  end.

(** [st.session_state.k] read: a missing attribute raises. *)
Definition getattr (k : string) : M value := λ s,
  match session s !! k with
  | Some v => (s, Ok v)
  | None => (s, Err (Raise AttributeError))
  end.

(** [st.session_state.k = v]. *)
Definition assign (k : string) (v : value) : M unit := λ s,
  ({| session := <[k := v]> (session s);
      log := log s ++ [Eff (SetAttr k v)] |}, Ok tt).

(** A [for] loop. *)
Fixpoint for_each {A : Type} (items : list A) (body : A → M unit) : M unit :=
  match items with
  | [] => mret tt
  | x :: rest => body x;; for_each rest body
  end.

(** *** Python operations on values *)

(** Truth value testing.  [VBytes] stands for an uploaded-file object, which
    is always true. *)
Definition truthy (v : value) : bool :=
  match v with
  | VNone => false
  | VBool b => b
  | VInt z => negb (z =? 0)%Z
  | VFloat q => negb (Qeq_bool q 0)
  | VStr s => negb (bool_decide (s = ""))
  | VBytes _ => true
  | VList items => negb (bool_decide (items = []))
  | VDict entries => negb (bool_decide (entries = []))
  end.

(** [v[k]] with a string key. *)
Definition subscript (v : value) (k : string) : result exn value :=
  match v with
  | VDict entries =>
      match assoc k entries with
      | Some x => Ok x
      | None => Err KeyError
      end
  | _ => Err TypeError
  end.

(** [v.items()]. *)
Definition items (v : value) : result exn (list (string * value)) :=
  match v with
  | VDict entries => Ok entries
  | _ => Err AttributeError
  end.

(** The lines of a file object, each with its newline. *)
Fixpoint lines_go (cur : list Byte.byte) (data : list Byte.byte)
  : list (list Byte.byte) :=
  match data with
  | [] => match cur with [] => [] | _ :: _ => [rev cur] end
  | b :: rest =>
      if Byte.eqb b Byte.x0a then rev (b :: cur) :: lines_go [] rest
      else lines_go (b :: cur) rest
  end.

Fixpoint chars (s : string) : list value :=
  match s with
  | EmptyString => []
  | String c rest => VStr (String c EmptyString) :: chars rest
  end.

(** [iter(v)]: what a [for] loop over [v] visits. *)
Definition iterate (v : value) : result exn (list value) :=
  match v with
  | VList l => Ok l
  | VStr s => Ok (chars s)
  | VDict entries => Ok (VStr <$> entries.*1)
  | VBytes data => Ok (VBytes <$> lines_go [] data)
  | VNone | VBool _ | VInt _ | VFloat _ => Err TypeError
  end.

(** The numbers: [int], [float] and [bool]. *)
Definition number (v : value) : option Q :=
  match v with
  | VInt z => Some (inject_Z z)
  | VFloat q => Some q
  | VBool b => Some (if b then 1 else 0)%Q
  | _ => None
  end.

(** [v / 5.0]. *)
Definition div5 (v : value) : result exn value :=
  match number v with
  | Some q => Ok (VFloat (q / 5))
  | None => Err TypeError
  end.

(** [v >= n] for an integer literal [n]. *)
Definition ge (v : value) (n : Z) : result exn bool :=
  match number v with
  | Some q => Ok (Qle_bool (inject_Z n) q)
  | None => Err TypeError
  end.

(** The format specification [.1f]. *)
Definition fixed1 (v : value) : result exn fragment :=
  match v with
  | VInt _ | VFloat _ | VBool _ => Ok (Fixed1 v)
  | VStr _ => Err ValueError
  | _ => Err TypeError
  end.

Definition is_upper (c : ascii) : bool :=
  let n := N_of_ascii c in ((65 <=? n) && (n <=? 90))%N.

Definition is_lower (c : ascii) : bool :=
  let n := N_of_ascii c in ((97 <=? n) && (n <=? 122))%N.

Definition to_upper (c : ascii) : ascii :=
  if is_lower c then ascii_of_N (N_of_ascii c - 32) else c.

Definition to_lower (c : ascii) : ascii :=
  if is_upper c then ascii_of_N (N_of_ascii c + 32) else c.

(** [str.title()] on ASCII text: a letter that follows a letter is
    lowercased, any other letter is uppercased. *)
Fixpoint title_go (after_letter : bool) (s : string) : string :=
  match s with
  | EmptyString => EmptyString
  | String c rest =>
      String (if after_letter then to_lower c else to_upper c)
             (title_go (is_upper c || is_lower c) rest)
  end.

Definition title (s : string) : string := title_go false s.

(** [strftime('%H:%M')]. *)
Definition strftime_hm (now : datetime) : string :=
  zero_pad 2 (hour now) +:+ ":" +:+ zero_pad 2 (minute now).

(** *** The pages *)

Definition navigation_options : list string :=
  ["Record & Analyze"; "Practice History"; "Mock Interview"; "Settings"].

(** [sidebar_navigation], app.py lines 28-55. *)
Definition sidebar_navigation (inp : inputs) (clk : clock) : M string :=
  ui "sidebar.title" [[Lit "🎤 Speech Coach"]];;
  ui "sidebar.radio" [[Lit "Navigate to:"];
                      [Show (VList (VStr <$> navigation_options))]];;
  ui "sidebar.divider" [];;
  ui "sidebar.subheader" [[Lit "Current Session"]];;
  current ← getattr "current_session";
  (if truthy current then
     current ← getattr "current_session";
     ui "sidebar.write" [[Lit "Session ID: "; Show current]];;
     ui "sidebar.write" [[Lit "Started: "; Lit (strftime_hm (at_sidebar clk))]]
   else
     ui "sidebar.write" [[Lit "No active session"]]);;
  ui "sidebar.divider" [];;
  ui "sidebar.subheader" [[Lit "Quick Stats"]];;
  ui "sidebar.metric" [[Lit "Sessions Today"]; [Lit "0"]];;
  ui "sidebar.metric" [[Lit "Avg Score"]; [Lit "N/A"]];;
  ui "sidebar.metric" [[Lit "Best Improvement"]; [Lit "N/A"]];;
  mret (page inp).

(** The call of [analyze_audio] at line 109: its effects join the log, and
    its [st.rerun()] ends the run. *)
Definition run_analyze_audio (clk : clock) : M unit := λ s,
  let w := analyze_audio (at_analysis clk)
             {| state := session s; effects := [] |} in
  ({| session := state w; log := log s ++ (Eff <$> effects w) |},
   Err RerunRequested).

(** [display_analysis_results], app.py lines 170-260. *)
Definition display_analysis_results (inp : inputs) : M unit :=
  ui "divider" [];;
  ui "header" [[Lit "📊 Speech Analysis Results"]];;
  results ← getattr "analysis_results";
  ui "subheader" [[Lit "Key Metrics"]];;
  ui "columns" [[Show (VInt 4)]];;
  metrics ← lift (subscript results "metrics");
  wpm ← lift (subscript metrics "words_per_minute");
  ui "metric" [[Lit "Words/Minute"]; [Show wpm]];;
  metrics ← lift (subscript results "metrics");
  filler_count ← lift (subscript metrics "filler_count");
  metrics ← lift (subscript results "metrics");
  filler_rate ← lift (subscript metrics "filler_rate");
  filler_rate ← lift (fixed1 filler_rate);
  ui "metric" [[Lit "Filler Words"]; [Show filler_count];
               [filler_rate; Lit "/min"]];;
  metrics ← lift (subscript results "metrics");
  average_pause ← lift (subscript metrics "average_pause");
  average_pause ← lift (fixed1 average_pause);
  ui "metric" [[Lit "Avg Pause"]; [average_pause; Lit "s"]];;
  metrics ← lift (subscript results "metrics");
  total_duration ← lift (subscript metrics "total_duration");
  ui "metric" [[Lit "Duration"]; [Show total_duration; Lit "s"]];;
  ui "subheader" [[Lit "Performance Scores"]];;
  ui "columns" [[Show (VList [VInt 2; VInt 1])]];;
  scores ← lift (subscript results "scores");
  entries ← lift (items scores);
  for_each entries (λ '(category, score),
    if bool_decide (category ≠ "overall") then
      progress ← lift (div5 score);
      ui "write" [[Lit "**"; Lit (title category); Lit ":** ";
                   Show score; Lit "/5"]];;
      ui "progress" [[Show progress]]
    else mret tt);;
  scores ← lift (subscript results "scores");
  overall_score ← lift (subscript scores "overall");
  ui "metric" [[Lit "Overall Score"]; [Show overall_score; Lit "/5"]];;
  excellent ← lift (ge overall_score 4);
  (if (excellent : bool) then ui "success" [[Lit "Excellent delivery! 🎉"]]
   else
     good ← lift (ge overall_score 3);
     if (good : bool) then ui "info" [[Lit "Good foundation, room for improvement 👍"]]
     else ui "warning" [[Lit "Focus on key improvements 📈"]]);;
  ui "subheader" [[Lit "📝 Transcript"]];;
  ui "expander" [[Lit "View full transcript"]];;
  transcript ← lift (subscript results "transcript");
  ui "write" [[Show transcript]];;
  ui "columns" [[Show (VInt 2)]];;
  ui "subheader" [[Lit "✅ Strengths"]];;
  feedback ← lift (subscript results "feedback");
  strengths ← lift (subscript feedback "strengths");
  strengths ← lift (iterate strengths);
  for_each strengths (λ strength, ui "write" [[Lit "• "; Show strength]]);;
  ui "subheader" [[Lit "📈 Areas to Improve"]];;
  feedback ← lift (subscript results "feedback");
  improvements ← lift (subscript feedback "improvements");
  improvements ← lift (iterate improvements);
  for_each improvements (λ improvement,
    ui "write" [[Lit "• "; Show improvement]]);;
  ui "subheader" [[Lit "🎯 Recommended Practice"]];;
  feedback ← lift (subscript results "feedback");
  drills ← lift (subscript feedback "practice_drills");
  drills ← lift (iterate drills);
  for_each (imap (λ i drill, (Z.of_nat (S i), drill)) drills) (λ '(i, drill),
    ui "write" [[Lit "**"; Show (VInt i); Lit ".** "; Show drill]]);;
  ui "divider" [];;
  ui "columns" [[Show (VInt 3)]];;
  ui "button" [[Lit "🔄 Analyze Another"]];;
  (if analyze_another_clicked inp then
     assign "analysis_results" VNone;;
     assign "audio_file" VNone;;
     halt RerunRequested
   else mret tt);;
  ui "button" [[Lit "💾 Save Session"]];;
  (if save_session_clicked inp then
     ui "success" [[Lit "Session saved to history!"]]
   else mret tt);;
  ui "button" [[Lit "📊 View History"]];;
  (if view_history_clicked inp then halt (SwitchPage "Practice History")
   else mret tt).

Definition how_to_use : string := "
        1. **Choose input method**: Record directly or upload an audio file
        2. **Record your response**: Keep it under 2 minutes for best results
        3. **Get instant feedback**: Review your speech metrics and coaching tips
        4. **Practice & improve**: Use the suggestions to refine your delivery
        
        **Tips for best results:**
        - Speak clearly in a quiet environment
        - Answer as if in a real interview
        - Focus on delivery, not just content
        ".

(** [record_analyze_page], app.py lines 57-115. *)
Definition record_analyze_page (inp : inputs) (clk : clock) : M unit :=
  ui "title" [[Lit "🎤 Record Your Interview Response"]];;
  ui "write" [[Lit "Practice your interview responses and get instant feedback on your speech delivery."]];;
  ui "expander" [[Lit "📋 How to Use"]];;
  ui "markdown" [[Lit how_to_use]];;
  ui "columns" [[Show (VList [VInt 1; VInt 1])]];;
  ui "subheader" [[Lit "🎙️ Record Audio"]];;
  ui "audio_input" [[Lit "Record your response (up to 2 minutes)"]];;
  match audio_recording inp with
  | Some data =>
      assign "audio_file" (VBytes data);;
      ui "success" [[Lit "✅ Audio recorded successfully!"]];;
      ui "audio" [[Raw data]]
  | None => mret tt
  end;;
  ui "subheader" [[Lit "📁 Upload Audio File"]];;
  ui "file_uploader" [[Lit "Or upload an existing recording"];
                      [Show (VList (VStr <$> ["wav"; "mp3"; "m4a"; "webm"; "ogg"]))]];;
  match uploaded_file inp with
  | Some data =>
      assign "audio_file" (VBytes data);;
      ui "success" [[Lit "✅ File uploaded successfully!"]];;
      ui "audio" [[Raw data]]
  | None => mret tt
  end;;
  ui "divider" [];;
  audio_file ← getattr "audio_file";
  match audio_file with
  | VNone => ui "info" [[Lit "👆 Record or upload audio to get started"]]
  | _ =>
      ui "columns" [[Show (VList [VInt 1; VInt 1; VInt 1])]];;
      ui "button" [[Lit "🔍 Analyze Speech"]];;
      if analyze_clicked inp then run_analyze_audio clk else mret tt
  end;;
  results ← getattr "analysis_results";
  if truthy results then display_analysis_results inp else mret tt.

(** The table literal of app.py lines 273-279. *)
Definition mock_data : value :=
  VDict [
    ("Date", VList [VStr "2024-01-15"; VStr "2024-01-14"; VStr "2024-01-13"]);
    ("Duration", VList [VStr "1:32"; VStr "2:05"; VStr "1:18"]);
    ("Overall Score", VList [VInt 3; VInt 2; VInt 4]);
    ("Filler Words", VList [VInt 8; VInt 15; VInt 3]);
    ("WPM", VList [VInt 145; VInt 132; VInt 168]) ].

(** [practice_history_page], app.py lines 262-282. *)
Definition practice_history_page : M unit :=
  ui "title" [[Lit "📈 Practice History"]];;
  ui "write" [[Lit "Track your progress over time and review past sessions."]];;
  ui "info" [[Lit "🚧 Coming soon! This will show your practice history and progress charts."]];;
  ui "dataframe" [[Show mock_data]].

(** [mock_interview_page], app.py lines 284-295. *)
Definition mock_interview_page (inp : inputs) : M unit :=
  ui "title" [[Lit "🎭 Mock Interview"]];;
  ui "write" [[Lit "Practice with common interview questions across different categories."]];;
  ui "info" [[Lit "🚧 Coming soon! This will provide structured mock interview sessions."]];;
  ui "selectbox" [[Lit "Select question category:"];
                  [Show (VList (VStr <$> ["Behavioral"; "Technical"; "Leadership"; "Problem-Solving"]))]];;
  ui "write" [[Lit "Selected: "; Show (VStr (selected_category inp));
               Lit " questions"]].

(** [settings_page], app.py lines 297-330. *)
Definition settings_page (inp : inputs) : M unit :=
  ui "title" [[Lit "⚙️ Settings"]];;
  ui "write" [[Lit "Customize your coaching experience and preferences."]];;
  ui "subheader" [[Lit "Analysis Settings"]];;
  ui "slider" [[Lit "Target Words Per Minute"];
               [Show (VInt 120)]; [Show (VInt 200)]; [Show (VInt 160)]];;
  ui "slider" [[Lit "Max Acceptable Filler Rate (per minute)"];
               [Show (VFloat 0)]; [Show (VFloat 10)]; [Show (VFloat 3)];
               [Show (VFloat (1 # 2))]];;
  ui "subheader" [[Lit "Feedback Preferences"]];;
  ui "select_slider" [[Lit "Feedback Detail Level"];
                      [Show (VList (VStr <$> ["Brief"; "Standard"; "Detailed"]))];
                      [Show (VStr "Standard")]];;
  ui "multiselect" [[Lit "Primary Focus Areas"];
                    [Show (VList (VStr <$> ["Pace"; "Fluency"; "Clarity"; "Structure"; "Confidence"]))];
                    [Show (VList (VStr <$> ["Pace"; "Fluency"]))]];;
  ui "subheader" [[Lit "Audio Settings"]];;
  ui "checkbox" [[Lit "Auto-normalize audio volume"]; [Show (VBool true)]];;
  ui "checkbox" [[Lit "Apply noise reduction"]; [Show (VBool false)]];;
  ui "button" [[Lit "💾 Save Settings"]];;
  if save_settings_clicked inp then ui "success" [[Lit "Settings saved!"]]
  else mret tt.

(** [main] after its first statement: the sidebar and the page routing,
    app.py lines 336-347. *)
Definition navigate (inp : inputs) (clk : clock) : M unit :=
  current_page ← sidebar_navigation inp clk;
  if bool_decide (current_page = "Record & Analyze") then
    record_analyze_page inp clk
  else if bool_decide (current_page = "Practice History") then
    practice_history_page
  else if bool_decide (current_page = "Mock Interview") then
    mock_interview_page inp
  else if bool_decide (current_page = "Settings") then
    settings_page inp
  else mret tt.

(** [main], app.py lines 332-347. *)
Definition main (inp : inputs) (clk : clock) : M unit :=
  (λ s, ({| session := init_session_state (session s); log := log s |}, Ok tt));;
  navigate inp clk.

(** One run of the script on a session state. *)
Definition run (inp : inputs) (clk : clock) (st : gmap string value)
  : store * result stop unit :=
  main inp clk {| session := st; log := [] |}.

(** The session states that the application can be in: a fresh session and
    whatever a run leaves behind. *)
Inductive reachable : gmap string value → Prop :=
| reachable_fresh : reachable ∅
| reachable_run st inp clk :
    reachable st → reachable (session (run inp clk st).1).

(** Someone who is on the recording page and clicks nothing. *)
Definition idle : inputs :=
  {| page := "Record & Analyze";
     audio_recording := None; uploaded_file := None;
     analyze_clicked := false; analyze_another_clicked := false;
     save_session_clicked := false; view_history_clicked := false;
     selected_category := "Behavioral"; save_settings_clicked := false |}.

Definition at_noon : clock := {| at_sidebar := noon; at_analysis := noon |}.

(** [v is None]. *)
Definition is_none (v : value) : bool :=
  match v with
  | VNone => true
  | _ => false
  end.

(** The audio file that the two input widgets of the recording page leave
    in the session: the upload if there is one, else the recording if there
    is one, else what was stored before. *)
Definition chosen_audio (inp : inputs) (stored : value) : value :=
  match uploaded_file inp, audio_recording inp with
  | Some data, _ => VBytes data
  | None, Some data => VBytes data
  | None, None => stored
  end.

(** The title of the results section. *)
Definition results_header : event :=
  Ui "header" [[Lit "📊 Speech Analysis Results"]].

(** What the application keeps in the session state: the three managed
    keys and nothing else, holding [None], a session identifier, the
    placeholder results or an audio file. *)
Definition well_kept (st : gmap string value) : Prop :=
  (st !! "current_session" = Some VNone ∨
   ∃ now, st !! "current_session"
          = Some (VStr ("session_" +:+ strftime_session now))) ∧
  (st !! "analysis_results" = Some VNone ∨
   st !! "analysis_results" = Some placeholder_results) ∧
  (st !! "audio_file" = Some VNone ∨
   ∃ data, st !! "audio_file" = Some (VBytes data)) ∧
  (∀ k, k ∉ managed_keys → st !! k = None).

End Script.

(** * Properties *)

Import App Feedback Metrics.

(** ** Session state *)

Lemma init_session_state_lookup (st : gmap string value) (k : string) :
  init_session_state st !! k =
    match st !! k with
    | Some v => Some v
    | None => if decide (k ∈ managed_keys) then Some VNone else None
    end.
Proof.
  unfold init_session_state, managed_keys.
  destruct (decide (k = "current_session")) as [->|H1];
    [|destruct (decide (k = "analysis_results")) as [->|H2];
      [|destruct (decide (k = "audio_file")) as [->|H3]]].
  all: repeat match goal with
         | |- context [match ?m !! ?j with _ => _ end] =>
             lazymatch m with
             | context [match _ with _ => _ end] => fail
             | _ => destruct (m !! j) eqn:?
             end
         end; simplify_map_eq; try done.
  all: repeat case_decide; try done; set_solver.
Qed.

(** C10. [init_session_state] only fills in what is missing: a key that is
    present keeps its value, each of the three managed keys that is absent
    becomes [None], no other key is touched, and a second call changes
    nothing. *)
Theorem init_session_state_frame (st : gmap string value) :
  (∀ k v, st !! k = Some v → init_session_state st !! k = Some v) ∧
  (∀ k, k ∈ managed_keys → st !! k = None →
        init_session_state st !! k = Some VNone) ∧
  (∀ k, k ∉ managed_keys → init_session_state st !! k = st !! k) ∧
  init_session_state (init_session_state st) = init_session_state st.
Proof.
  repeat split.
  - intros k v Hk. by rewrite init_session_state_lookup, Hk.
  - intros k Hin Hk. rewrite init_session_state_lookup, Hk. by case_decide.
  - intros k Hout. rewrite init_session_state_lookup.
    destruct (st !! k); [done|]. by case_decide.
  - apply map_eq. intros k. rewrite !init_session_state_lookup.
    destruct (st !! k); [done|]. by case_decide.
Qed.

Lemma init_session_state_frame_witness :
  init_session_state (state recorded) !! "audio_file"
    = Some (VBytes [Byte.x52; Byte.x49; Byte.x46; Byte.x46]) ∧
  init_session_state ∅ !! "analysis_results" = Some VNone.
Proof.
  split.
  - apply (proj1 (init_session_state_frame (state recorded))).
    vm_compute. reflexivity.
  - apply (proj1 (proj2 (init_session_state_frame ∅))).
    + unfold managed_keys. set_solver.
    + reflexivity.
Defined.

(** ** The placeholder analysis *)

Lemma analyze_audio_state (now : datetime) (w : world) :
  state (analyze_audio now w) =
    <["current_session" := VStr ("session_" +:+ strftime_session now)]>
      (<["analysis_results" := placeholder_results]> (state w)).
Proof. reflexivity. Qed.

Lemma analyze_audio_results (now : datetime) (w : world) :
  state (analyze_audio now w) !! "analysis_results" = Some placeholder_results.
Proof. rewrite analyze_audio_state. by simplify_map_eq. Qed.

(** C1. Whatever the clock and the session hold, [analyze_audio] sleeps two
    seconds, then stores the one hard-coded dictionary with its four entries
    under [analysis_results]; the stored value is the same for any two
    invocations, so it does not depend on the audio. *)
Theorem analyze_audio_is_constant (now : datetime) (w : world) :
  effects (analyze_audio now w) =
    (effects w ++
      [ SpinnerEnter "Analyzing your speech... This may take a moment.";
        Sleep 2;
        SetAttr "analysis_results" placeholder_results;
        SetAttr "current_session" (VStr ("session_" +:+ strftime_session now));
        Success "✅ Analysis complete!";
        Rerun;
        SpinnerExit ])%list ∧
  (∃ entries,
      state (analyze_audio now w) !! "analysis_results" = Some (VDict entries) ∧
      entries.*1 = ["transcript"; "metrics"; "scores"; "feedback"]) ∧
  (∀ now' w',
      state (analyze_audio now' w') !! "analysis_results" =
      state (analyze_audio now w) !! "analysis_results").
Proof.
  split; [|split].
  - unfold analyze_audio, emit, setattr; simpl.
    by rewrite <- !app_assoc.
  - rewrite analyze_audio_results. by eexists.
  - intros now' w'. by rewrite !analyze_audio_results.
Qed.



(** C6, as stated, fails for the analysis step: two runs on the same session
    one second apart store different session identifiers, and a run changes
    the session state it was given. *)
Lemma analysis_step_reads_clock_and_writes_state :
  state (analyze_audio noon recorded) !! "current_session" ≠
    state (analyze_audio noon_and_a_second recorded) !! "current_session" ∧
  state (analyze_audio noon recorded) ≠ state recorded.
Proof.
  split.
  - rewrite !analyze_audio_state. simplify_map_eq. intros [=].
  - intros Heq.
    assert (state (analyze_audio noon recorded) !! "analysis_results"
            = state recorded !! "analysis_results") as Hl by (by rewrite Heq).
    rewrite analyze_audio_results in Hl. vm_compute in Hl. discriminate Hl.
Qed.

(** C6, amended. The metrics and scores that the analysis step stores are
    the same for any two runs, whatever the audio, the previous session
    state and the clock; the step leaves [audio_file] and every key other
    than [analysis_results] and [current_session] as they were; the session
    identifier it stores is a function of the clock reading alone. *)
Theorem analysis_results_are_reproducible
    (now1 now2 : datetime) (w1 w2 : world) :
  (∃ results metrics scores,
      state (analyze_audio now1 w1) !! "analysis_results" = Some results ∧
      state (analyze_audio now2 w2) !! "analysis_results" = Some results ∧
      getitem results "metrics" = Some metrics ∧
      getitem results "scores" = Some scores) ∧
  state (analyze_audio now1 w1) !! "audio_file" = state w1 !! "audio_file" ∧
  (∀ k, k ≠ "analysis_results" → k ≠ "current_session" →
        state (analyze_audio now1 w1) !! k = state w1 !! k) ∧
  state (analyze_audio now1 w1) !! "current_session"
    = Some (VStr ("session_" +:+ strftime_session now1)).
Proof.
  split; [|split; [|split]].
  - eexists _, _, _. rewrite !analyze_audio_results.
    repeat split; reflexivity.
  - rewrite analyze_audio_state. by simplify_map_eq.
  - intros k Hk1 Hk2. rewrite analyze_audio_state. by simplify_map_eq.
  - rewrite analyze_audio_state. by simplify_map_eq.
Qed.

Lemma analysis_results_are_reproducible_witness :
  state (analyze_audio noon recorded) !! "theme" = state recorded !! "theme".
Proof.
  apply (proj1 (proj2 (proj2
           (analysis_results_are_reproducible noon noon recorded recorded)))).
  - discriminate.
  - discriminate.
Defined.

(** ** The feedback model *)








(** ** The speech-metrics extractor *)

Lemma checked_div_Ok (a b : Q) :
  ¬ (b == 0)%Q → checked_div a b = Ok (a / b)%Q.
Proof.
  intros Hb. unfold checked_div.
  destruct (Qeq_bool b 0) eqn:E; [|done].
  by apply Qeq_bool_iff in E.
Qed.

Lemma Q_of_nat_S_nonzero (n : nat) : ¬ (Q_of_nat (S n) == 0)%Q.
Proof. unfold Q_of_nat, Qeq; simpl. lia. Qed.

Lemma per_minute_nonzero (d : Q) : ¬ (d == 0)%Q → ¬ (d / 60 == 0)%Q.
Proof.
  intros Hd H. apply Hd.
  assert (d == d / 60 * 60)%Q as -> by field.
  rewrite H. reflexivity.
Qed.

Lemma Qeq_bool_false (a b : Q) : Qeq_bool a b = false → ¬ (a == b)%Q.
Proof. apply Qeq_bool_neq. Qed.


Lemma compute_words_per_minute_total (ws : list Word) (d : Q) :
  ∃ q, compute_words_per_minute ws d = Ok q.
Proof.
  unfold compute_words_per_minute.
  destruct (Qeq_bool d 0) eqn:E; [by eexists|].
  destruct ws as [|w ws]; [by eexists|].
  rewrite checked_div_Ok; [by eexists|].
  by apply per_minute_nonzero, Qeq_bool_false.
Qed.

Lemma compute_filler_rate_total (n : nat) (d : Q) :
  ∃ q, compute_filler_rate n d = Ok q.
Proof.
  unfold compute_filler_rate.
  destruct (Qeq_bool d 0) eqn:E; [by eexists|].
  rewrite checked_div_Ok; [by eexists|].
  by apply per_minute_nonzero, Qeq_bool_false.
Qed.

Lemma average_pause_total (ps : list PauseInterval) :
  ∃ q, average_pause ps = Ok q.
Proof.
  destruct ps as [|p ps]; [by eexists|].
  unfold average_pause. rewrite checked_div_Ok; [by eexists|].
  apply Q_of_nat_S_nonzero.
Qed.

Lemma existsb_malformed_false (ws : list Word) :
  existsb malformed ws = false ↔ Forall well_formed ws.
Proof.
  induction ws as [|w ws IH]; simpl.
  - split; [constructor|done].
  - rewrite orb_false_iff, IH, Forall_cons. unfold malformed, well_formed.
    rewrite negb_false_iff, Qle_bool_iff. done.
Qed.


(** What a successful run returns, field by field. *)
Lemma compute_metrics_Ok_inv (tr : Transcript) (d : Q) (lex : gset string)
    (thr : Q) (r : MetricsReport) :
  compute_metrics tr d lex thr = Ok r →
  (0 <= d)%Q ∧ Forall well_formed (words tr) ∧
  compute_words_per_minute (words tr) d = Ok (words_per_minute r) ∧
  filler_count r = count_fillers lex 0 (normalize ∘ text <$> words tr) ∧
  compute_filler_rate (filler_count r) d = Ok (filler_rate_per_minute r) ∧
  average_pause (pauses (words tr)) = Ok (average_pause_seconds r) ∧
  long_pause_count r = length (long_pauses thr (words tr)) ∧
  total_duration_seconds r = d.
Proof.
  unfold compute_metrics.
  destruct (Qle_bool 0 d) eqn:Hd; simpl; [|done].
  destruct (existsb malformed (words tr)) eqn:Hw; [done|].
  destruct (compute_words_per_minute (words tr) d) as [wpm|] eqn:Hwpm;
    simpl; [|done].
  destruct (compute_filler_rate _ d) as [rate|] eqn:Hrate; simpl; [|done].
  destruct (average_pause _) as [avg|] eqn:Havg; simpl; [|done].
  intros [= <-]; simpl.
  apply Qle_bool_iff in Hd. apply existsb_malformed_false in Hw.
  done.
Qed.

(** Valid input always yields a report. *)
Lemma compute_metrics_total (tr : Transcript) (d : Q) (lex : gset string)
    (thr : Q) :
  (0 <= d)%Q → Forall well_formed (words tr) →
  ∃ r, compute_metrics tr d lex thr = Ok r.
Proof.
  intros Hd Hw. unfold compute_metrics.
  apply Qle_bool_iff in Hd. apply existsb_malformed_false in Hw.
  rewrite Hd, Hw; simpl.
  destruct (compute_words_per_minute_total (words tr) d) as [wpm ->]; simpl.
  destruct (compute_filler_rate_total
              (count_fillers lex 0 (normalize ∘ text <$> words tr)) d)
    as [rate ->]; simpl.
  destruct (average_pause_total (pauses (words tr))) as [avg ->]; simpl.
  by eexists.
Qed.







(** *** Pauses *)









(** C8. The long pauses of a run are the pauses whose duration is at least
    the threshold; in particular a pause of exactly the threshold is among
    them and is counted in [long_pause_count]. *)
Theorem long_pause_threshold_is_inclusive (tr : Transcript) (d : Q)
    (lex : gset string) (thr : Q) (r : MetricsReport) :
  compute_metrics tr d lex thr = Ok r →
  long_pause_count r = length (long_pauses thr (words tr)) ∧
  (∀ p, In p (long_pauses thr (words tr)) ↔
        In p (pauses (words tr)) ∧ (thr <= duration p)%Q) ∧
  (∀ p, In p (pauses (words tr)) → (duration p == thr)%Q →
        In p (long_pauses thr (words tr))).
Proof.
  intros Hr.
  apply compute_metrics_Ok_inv in Hr as (_ & _ & _ & _ & _ & _ & Hlong & _).
  assert (∀ p, In p (long_pauses thr (words tr)) ↔
               In p (pauses (words tr)) ∧ (thr <= duration p)%Q) as Hin.
  { intros p. unfold long_pauses, is_long.
    by rewrite filter_In, Qle_bool_iff. }
  split; [done|]. split; [done|].
  intros p Hp Heq. apply Hin. split; [done|].
  rewrite Heq. apply Qle_refl.
Qed.

Lemma long_pause_threshold_is_inclusive_witness :
  In {| pause_start := 1; pause_end := 2; duration := 1 |}
     (long_pauses default_long_pause_threshold (words boundary_transcript)).
Proof.
  apply (proj2 (proj2
           (long_pause_threshold_is_inclusive boundary_transcript 3
              scenario_lexicon default_long_pause_threshold _ eq_refl))).
  - left. reflexivity.
  - reflexivity.
Defined.

Example boundary_pause_is_counted :
  ∃ r, compute_metrics boundary_transcript 3 scenario_lexicon
         default_long_pause_threshold = Ok r ∧ long_pause_count r = 1.
Proof. eexists. split; reflexivity. Qed.

Example shorter_pause_is_not_counted :
  ∃ r, compute_metrics boundary_transcript 3 scenario_lexicon (11 # 10)
       = Ok r ∧ long_pause_count r = 0.
Proof. eexists. split; reflexivity. Qed.

(** *** Fillers *)

(** Section 8: there are never more fillers than words. *)
Lemma count_fillers_le (lex : gset string) (skip : nat) (tokens : list string) :
  (count_fillers lex skip tokens ≤ length tokens)%nat.
Proof.
  revert skip. induction tokens as [|t tokens IH]; intros skip; [done|].
  cbn [count_fillers length]. destruct skip as [|k].
  - destruct (match_length lex (t :: tokens)) as [|k].
    + specialize (IH 0). lia.
    + specialize (IH k). lia.
  - specialize (IH k). lia.
Qed.

(** C7. For the six words "um I think uh it's good", whatever their
    (well-formed) timestamps, with the lexicon {um, uh} and a duration of
    3 seconds, [compute_metrics] returns [filler_count = 2] and
    [words_per_minute = 120]. *)
Theorem six_word_scenario (tr : Transcript) (thr : Q) :
  text <$> words tr = ["um"; "I"; "think"; "uh"; "it's"; "good"] →
  Forall well_formed (words tr) →
  ∃ r, compute_metrics tr 3 scenario_lexicon thr = Ok r ∧
       filler_count r = 2 ∧ (words_per_minute r == 120)%Q.
Proof.
  intros Htext Hw.
  destruct (compute_metrics_total tr 3 scenario_lexicon thr) as [r Hr];
    [discriminate|done|].
  exists r. split; [done|].
  apply compute_metrics_Ok_inv in Hr as (_ & _ & Hwpm & Hfc & _).
  split.
  - rewrite Hfc, list_fmap_compose, Htext. by vm_compute.
  - assert (length (words tr) = 6) as Hlen.
    { by rewrite <- (length_fmap text), Htext. }
    unfold compute_words_per_minute in Hwpm. simpl in Hwpm.
    destruct (words tr) as [|w ws]; [done|].
    rewrite Hlen in Hwpm. by injection Hwpm as <-.
Qed.

Lemma six_word_scenario_witness :
  ∃ r, compute_metrics scenario_transcript 3 scenario_lexicon
         default_long_pause_threshold = Ok r ∧
       filler_count r = 2 ∧ (words_per_minute r == 120)%Q.
Proof.
  apply (six_word_scenario scenario_transcript default_long_pause_threshold).
  - reflexivity.
  - repeat constructor; discriminate.
Defined.

(** ** Runs of the script *)

Import Script.

(** *** How a computation changes the session state

    [changes R m]: whatever the store and however [m] ends, the session
    state it leaves is related by [R] to the one it found. *)
Definition changes {A : Type} (R : relation (gmap string value)) (m : M A)
  : Prop :=
  ∀ s, R (session s) (session (m s).1).

Section changes.
Context (R : relation (gmap string value)) `{!PreOrder R}.

Lemma changes_ret {A} (a : A) : changes R (mret a : M A).
Proof. intros s. reflexivity. Qed.

Lemma changes_bind {A B} (m : M A) (f : A → M B) :
  changes R m → (∀ a, changes R (f a)) → changes R (m ≫= f).
Proof.
  intros Hm Hf s. unfold mbind, M_bind.
  specialize (Hm s). destruct (m s) as [s' [a|e]]; simpl in *; [|done].
  etrans; [done|]. apply Hf.
Qed.

Lemma changes_ui fn args : changes R (ui fn args).
Proof. intros s. reflexivity. Qed.

Lemma changes_halt {A} e : changes R (halt e : M A).
Proof. intros s. reflexivity. Qed.

Lemma changes_lift {A} (r : result exn A) : changes R (lift r).
Proof. destruct r; [apply changes_ret|apply changes_halt]. Qed.

Lemma changes_getattr k : changes R (getattr k).
Proof. intros s. unfold getattr. by destruct (session s !! k). Qed.

Lemma changes_assign k v :
  (∀ st, R st (<[k := v]> st)) → changes R (assign k v).
Proof. intros H s. apply H. Qed.

Lemma changes_for_each {A} (l : list A) (body : A → M unit) :
  (∀ x, changes R (body x)) → changes R (for_each l body).
Proof.
  intros Hbody. induction l as [|x l IH]; simpl.
  - apply changes_ret.
  - apply changes_bind; [apply Hbody|done].
Qed.

Lemma changes_if {A} (b : bool) (m1 m2 : M A) :
  changes R m1 → changes R m2 → changes R (if b then m1 else m2).
Proof. by destruct b. Qed.
End changes.

(** Walks through a script function, leaving the writes to the caller. *)
Ltac changes_rule lem := apply lem; try solve [typeclasses eauto].

Ltac changes_step :=
  lazymatch goal with
  | |- changes _ (mbind _ _) => changes_rule changes_bind; intros
  | |- changes _ (ui _ _) => changes_rule changes_ui
  | |- changes _ (mret _) => changes_rule changes_ret
  | |- changes _ (halt _) => changes_rule changes_halt
  | |- changes _ (lift _) => changes_rule changes_lift
  | |- changes _ (getattr _) => changes_rule changes_getattr
  | |- changes _ (for_each _ _) => changes_rule changes_for_each; intros
  | |- changes _ (if _ then _ else _) => changes_rule changes_if
  | |- changes _ (match ?x with _ => _ end) => destruct x
  end.

Ltac changes_auto := repeat changes_step.

Lemma changes_sidebar_navigation (R : relation (gmap string value))
    `{!PreOrder R} inp clk :
  changes R (sidebar_navigation inp clk).
Proof. unfold sidebar_navigation. changes_auto. Qed.

Lemma changes_display_analysis_results (R : relation (gmap string value))
    `{!PreOrder R} inp :
  (∀ st, R st (<["analysis_results" := VNone]> st)) →
  (∀ st, R st (<["audio_file" := VNone]> st)) →
  changes R (display_analysis_results inp).
Proof.
  intros H1 H2. unfold display_analysis_results.
  changes_auto; by changes_rule changes_assign.
Qed.

Lemma changes_run_analyze_audio (R : relation (gmap string value)) clk :
  (∀ st, R st (<["current_session" :=
                  VStr ("session_" +:+ strftime_session (at_analysis clk))]>
               (<["analysis_results" := placeholder_results]> st))) →
  changes R (run_analyze_audio clk).
Proof. intros H s. apply H. Qed.

Lemma changes_record_analyze_page (R : relation (gmap string value))
    `{!PreOrder R} inp clk :
  (∀ st, R st (<["analysis_results" := VNone]> st)) →
  (∀ st, R st (<["audio_file" := VNone]> st)) →
  (∀ data st, R st (<["audio_file" := VBytes data]> st)) →
  (∀ st, R st (<["current_session" :=
                  VStr ("session_" +:+ strftime_session (at_analysis clk))]>
               (<["analysis_results" := placeholder_results]> st))) →
  changes R (record_analyze_page inp clk).
Proof.
  intros H1 H2 H3 H4. unfold record_analyze_page.
  changes_auto;
    first [ by changes_rule changes_assign
          | by apply changes_run_analyze_audio
          | by apply changes_display_analysis_results ].
Qed.

Lemma changes_other_pages (R : relation (gmap string value))
    `{!PreOrder R} inp :
  changes R practice_history_page ∧ changes R (mock_interview_page inp) ∧
  changes R (settings_page inp).
Proof.
  unfold practice_history_page, mock_interview_page, settings_page.
  split; [|split]; changes_auto.
Qed.

Lemma changes_navigate (R : relation (gmap string value)) `{!PreOrder R}
    inp clk :
  (∀ st, R st (<["analysis_results" := VNone]> st)) →
  (∀ st, R st (<["audio_file" := VNone]> st)) →
  (∀ data st, R st (<["audio_file" := VBytes data]> st)) →
  (∀ st, R st (<["current_session" :=
                  VStr ("session_" +:+ strftime_session (at_analysis clk))]>
               (<["analysis_results" := placeholder_results]> st))) →
  changes R (navigate inp clk).
Proof.
  intros H1 H2 H3 H4. unfold navigate.
  changes_rule changes_bind; [by apply changes_sidebar_navigation|intros p].
  destruct (changes_other_pages R inp) as (? & ? & ?).
  destruct (bool_decide (p = "Record & Analyze"));
    [by apply changes_record_analyze_page|].
  destruct (bool_decide (p = "Practice History")); [assumption|].
  destruct (bool_decide (p = "Mock Interview")); [assumption|].
  destruct (bool_decide (p = "Settings")); [assumption|].
  changes_rule changes_ret.
Qed.

Lemma changes_main (R : relation (gmap string value)) `{!PreOrder R} inp clk :
  (∀ st, R st (init_session_state st)) →
  (∀ st, R st (<["analysis_results" := VNone]> st)) →
  (∀ st, R st (<["audio_file" := VNone]> st)) →
  (∀ data st, R st (<["audio_file" := VBytes data]> st)) →
  (∀ st, R st (<["current_session" :=
                  VStr ("session_" +:+ strftime_session (at_analysis clk))]>
               (<["analysis_results" := placeholder_results]> st))) →
  changes R (main inp clk).
Proof.
  intros H0 H1 H2 H3 H4. unfold main.
  changes_rule changes_bind; [intros s; apply H0|intros _].
  by apply changes_navigate.
Qed.

Lemma run_unfold inp clk (st : gmap string value) :
  run inp clk st
  = navigate inp clk {| session := init_session_state st; log := [] |}.
Proof. reflexivity. Qed.

(** The session string that an analysis stores is never empty. *)
Lemma session_id_truthy now :
  truthy (VStr ("session_" +:+ strftime_session now)) = true.
Proof. reflexivity. Qed.

(** X1. A run never touches a key of the session state other than the three
    managed ones. *)
Theorem run_leaves_other_keys inp clk (st : gmap string value) (k : string) :
  k ∉ managed_keys → session (run inp clk st).1 !! k = st !! k.
Proof.
  intros Hk. unfold managed_keys in Hk.
  apply not_elem_of_cons in Hk as [? Hk].
  apply not_elem_of_cons in Hk as [? Hk].
  apply not_elem_of_cons in Hk as [? _].
  pose (R := λ a b : gmap string value, b !! k = a !! k).
  assert (PreOrder R).
  { split; [by intros ?|]. intros a b c Hab Hbc. unfold R in *. congruence. }
  apply (changes_main R inp clk); unfold R; intros.
  - rewrite init_session_state_lookup. destruct (st0 !! k); [done|].
    case_decide as Hin; [|done]. unfold managed_keys in Hin. set_solver.
  - by rewrite lookup_insert_ne.
  - by rewrite lookup_insert_ne.
  - by rewrite lookup_insert_ne.
  - by rewrite !lookup_insert_ne.
Qed.

Lemma run_leaves_other_keys_witness :
  session (run idle at_noon {["theme" := VStr "dark"]}).1 !! "theme"
    = Some (VStr "dark").
Proof.
  rewrite (run_leaves_other_keys idle at_noon {["theme" := VStr "dark"]} "theme").
  - reflexivity.
  - unfold managed_keys. set_solver.
Defined.

(** X2. Once a session identifier is set it is never cleared: if
    [current_session] is true before a run, it is true after it, whatever
    the user does in that run. *)
Theorem session_id_is_kept inp clk (st : gmap string value) (v : value) :
  st !! "current_session" = Some v → truthy v = true →
  ∃ v', session (run inp clk st).1 !! "current_session" = Some v' ∧
        truthy v' = true.
Proof.
  intros Hv Ht.
  pose (R := λ a b : gmap string value,
          (∃ x, a !! "current_session" = Some x ∧ truthy x = true) →
          (∃ x, b !! "current_session" = Some x ∧ truthy x = true)).
  assert (PreOrder R).
  { split; [intros a; unfold R; auto|].
    intros a b c Hab Hbc. unfold R in *. auto. }
  assert (changes R (main inp clk)) as Hmain.
  { apply changes_main; [done|..]; unfold R; clear.
    - intros st0 (x & Hx & ?). exists x.
      by rewrite init_session_state_lookup, Hx.
    - intros st0. by rewrite lookup_insert_ne.
    - intros st0. by rewrite lookup_insert_ne.
    - intros data st0. by rewrite lookup_insert_ne.
    - intros st0 _. eexists. rewrite lookup_insert_eq. split; [done|].
      apply session_id_truthy. }
  apply (Hmain {| session := st; log := [] |}). simpl. eauto.
Qed.

Lemma session_id_is_kept_witness :
  ∃ v', session (run idle at_noon
                   {["current_session" := VStr "session_20240115_120000"]}).1
          !! "current_session" = Some v' ∧ truthy v' = true.
Proof.
  apply (session_id_is_kept idle at_noon _ (VStr "session_20240115_120000")).
  - reflexivity.
  - reflexivity.
Defined.

(** *** The session-state invariant *)

Lemma init_session_state_well_kept (st : gmap string value) :
  st = ∅ ∨ well_kept st → well_kept (init_session_state st).
Proof.
  unfold well_kept.
  intros [->|(Hcs & Har & Haf & Hother)];
    rewrite !init_session_state_lookup.
  - rewrite !lookup_empty. unfold managed_keys.
    repeat case_decide; try set_solver.
    repeat split; try (by left).
    intros k Hk. rewrite init_session_state_lookup, lookup_empty.
    by case_decide.
  - repeat split.
    + destruct Hcs as [->|[now ->]]; eauto.
    + destruct Har as [->| ->]; eauto.
    + destruct Haf as [->|[data ->]]; eauto.
    + intros k Hk. rewrite init_session_state_lookup, (Hother k Hk).
      by case_decide.
Qed.

Lemma well_kept_insert (st : gmap string value) (k : string) (v : value) :
  well_kept st →
  (k = "current_session" ∧
     (v = VNone ∨ ∃ now, v = VStr ("session_" +:+ strftime_session now))) ∨
  (k = "analysis_results" ∧ (v = VNone ∨ v = placeholder_results)) ∨
  (k = "audio_file" ∧ (v = VNone ∨ ∃ data, v = VBytes data)) →
  well_kept (<[k := v]> st).
Proof.
  unfold well_kept. intros (Hcs & Har & Haf & Hother) Hk.
  assert (k ∈ managed_keys) as Hin.
  { unfold managed_keys. destruct Hk as [[-> _]|[[-> _]|[-> _]]]; set_solver. }
  assert (∀ j, j ∉ managed_keys → <[k := v]> st !! j = None) as Hother'.
  { intros j Hj. rewrite lookup_insert_ne; [by apply Hother|].
    intros ->. done. }
  destruct Hk as [[-> Hv]|[[-> Hv]|[-> Hv]]];
    simplify_map_eq; repeat split; try done.
  - destruct Hv as [->|[now ->]]; eauto.
  - destruct Hv as [->| ->]; eauto.
  - destruct Hv as [->|[data ->]]; eauto.
Qed.

Lemma navigate_well_kept inp clk :
  changes (λ a b, well_kept a → well_kept b) (navigate inp clk).
Proof.
  apply changes_navigate.
  - split; [by intros ?|]. intros a b c Hab Hbc ?. auto.
  - intros st ?. apply well_kept_insert; eauto 10.
  - intros st ?. apply well_kept_insert; eauto 10.
  - intros data st ?. apply well_kept_insert; eauto 10.
  - intros st ?. do 2 (apply well_kept_insert; eauto 10).
Qed.

(** X3. Every session state that the application can reach from a fresh
    session is either still empty or holds exactly the three managed keys,
    with [current_session] either [None] or a session identifier,
    [analysis_results] either [None] or the placeholder dictionary, and
    [audio_file] either [None] or an audio file. *)
Theorem reachable_states_are_well_kept (st : gmap string value) :
  reachable st → st = ∅ ∨ well_kept st.
Proof.
  induction 1 as [|st inp clk _ IH]; [by left|right].
  rewrite run_unfold.
  apply (navigate_well_kept inp clk
           {| session := init_session_state st; log := [] |}).
  by apply init_session_state_well_kept.
Qed.

Lemma reachable_states_are_well_kept_witness :
  session (run idle at_noon ∅).1 = ∅ ∨
  well_kept (session (run idle at_noon ∅).1).
Proof.
  apply reachable_states_are_well_kept.
  apply reachable_run, reachable_fresh.
Defined.

(** *** What a run renders *)

(** Membership of an event in an explicit list of events. *)
Ltac events_solver :=
  rewrite ?elem_of_app, ?elem_of_cons, ?elem_of_nil;
  try tauto;
  solve [ intuition (try discriminate; try congruence)
        | left; reflexivity
        | right; events_solver ].

Lemma sidebar_navigation_run inp clk (s : store) (v : value) :
  session s !! "current_session" = Some v →
  ∃ l, sidebar_navigation inp clk s
       = ({| session := session s; log := log s ++ l |}, Ok (page inp)) ∧
       (Ui "sidebar.write" [[Lit "No active session"]] ∈ l ↔
          truthy v = false) ∧
       (Ui "sidebar.write" [[Lit "Session ID: "; Show v]] ∈ l ↔
          truthy v = true) ∧
       (∀ fn args, Ui fn args ∈ l → String.prefix "sidebar." fn = true) ∧
       (∀ e, Eff e ∉ l).
Proof.
  intros Hv.
  unfold sidebar_navigation, mbind, M_bind, ui, getattr; simpl.
  rewrite Hv. destruct (truthy v) eqn:Ht; simpl; rewrite ?Hv; simpl.
  all: eexists; split; [rewrite <- !app_assoc; reflexivity|].
  all: split; [|split; [|split]].
  all: try (intros fn args; rewrite ?elem_of_app, ?elem_of_cons, ?elem_of_nil;
            intros H; repeat destruct H as [H|H]; try done;
            by injection H as -> _).
  all: try (intros e; rewrite ?elem_of_app, ?elem_of_cons, ?elem_of_nil;
            intros H; repeat destruct H as [H|H]; done).
  all: rewrite ?elem_of_app, ?elem_of_cons, ?elem_of_nil.
  all: split; intros H; try done; try discriminate.
  all: try (repeat destruct H as [H|H]; done).
  all: tauto.
Qed.

Lemma bind_run {A B} (m : M A) (f : A → M B) (s s' : store) (a : A) :
  m s = (s', Ok a) → (m ≫= f) s = f a s'.
Proof. unfold mbind, M_bind. by intros ->. Qed.

Lemma bind_stop {A B} (m : M A) (f : A → M B) (s s' : store) (e : stop) :
  m s = (s', Err e) → (m ≫= f) s = (s', Err e).
Proof. unfold mbind, M_bind. by intros ->. Qed.

Lemma init_session_state_present (st : gmap string value) (k : string) :
  k ∈ managed_keys → ∃ v, init_session_state st !! k = Some v.
Proof.
  intros Hk. rewrite init_session_state_lookup.
  destruct (st !! k); [by eexists|]. case_decide; [by eexists|done].
Qed.

(** X4. On every page other than "Record & Analyze" a run ends normally
    and leaves the session state as [init_session_state] made it: the
    history, mock-interview and settings pages store nothing, whatever is
    selected or saved on them. *)
Theorem other_pages_store_nothing inp clk (st : gmap string value) :
  page inp ≠ "Record & Analyze" →
  session (run inp clk st).1 = init_session_state st ∧
  (run inp clk st).2 = Ok tt.
Proof.
  intros Hpage. rewrite run_unfold. unfold navigate.
  destruct (init_session_state_present st "current_session") as [v Hv];
    [unfold managed_keys; set_solver|].
  destruct (sidebar_navigation_run inp clk
              {| session := init_session_state st; log := [] |} v Hv)
    as (l & Hrun & _).
  rewrite (bind_run _ _ _ _ _ Hrun).
  rewrite bool_decide_false by done.
  repeat case_bool_decide; try (split; reflexivity).
  unfold settings_page. destruct (save_settings_clicked inp); split; reflexivity.
Qed.

Lemma other_pages_store_nothing_witness :
  session (run {| page := "Settings";
                  audio_recording := Some [Byte.x01]; uploaded_file := None;
                  analyze_clicked := true; analyze_another_clicked := true;
                  save_session_clicked := true; view_history_clicked := true;
                  selected_category := "Technical";
                  save_settings_clicked := true |} at_noon ∅).1
    = init_session_state ∅.
Proof.
  apply other_pages_store_nothing. discriminate.
Defined.

(** The session state after the two input widgets of the recording page. *)
Lemma record_inputs_session inp (st : gmap string value) (stored : value) :
  st !! "audio_file" = Some stored →
  let st1 :=
    match uploaded_file inp with
    | Some data => <["audio_file" := VBytes data]>
    | None => id
    end
      (match audio_recording inp with
       | Some data => <["audio_file" := VBytes data]>
       | None => id
       end st) in
  st1 !! "audio_file" = Some (chosen_audio inp stored) ∧
  (∀ k, k ≠ "audio_file" → st1 !! k = st !! k).
Proof.
  intros Hst. unfold chosen_audio.
  destruct (uploaded_file inp), (audio_recording inp); simpl;
    split; intros; by simplify_map_eq.
Qed.

(** Unfolds the monad of the script, and nothing else. *)
Ltac script_unfold :=
  cbv beta iota delta
    [mbind M_bind mret M_ret ui assign getattr halt lift session log fst snd].

(** The events appended to [lg] in a left-nested log [L]. *)
Ltac log_suffix L lg acc :=
  lazymatch L with
  | lg => acc
  | (?L' ++ ?x)%list => log_suffix L' lg constr:((x ++ acc)%list)
  end.

Ltac close_page_case lg :=
  lazymatch goal with
  | |- context [ {| session := ?X; log := ?L |} ] =>
      let l0 := log_suffix L lg constr:(@nil event) in
      let l0 := eval cbn [app] in l0 in
      replace L with (lg ++ l0)%list
        by (rewrite <- ?app_assoc; reflexivity);
      exists X, l0;
      split; [by simplify_map_eq|];
      split; [by intros; rewrite ?lookup_insert_ne|];
      split; [repeat (apply Forall_cons; split; [split; discriminate|]);
              apply Forall_nil|];
      reflexivity
  end.

(** The recording page up to its results section: either the analysis runs
    and ends the run, or the page goes on to the results section with the
    chosen audio stored. *)
Lemma record_analyze_page_run inp clk (s : store) (stored results : value) :
  session s !! "audio_file" = Some stored →
  session s !! "analysis_results" = Some results →
  ∃ st1 l,
    st1 !! "audio_file" = Some (chosen_audio inp stored) ∧
    (∀ k, k ≠ "audio_file" → st1 !! k = session s !! k) ∧
    Forall (λ e, e ≠ results_header ∧ e ≠ Eff (Sleep 2)) l ∧
    record_analyze_page inp clk s =
      if negb (is_none (chosen_audio inp stored)) && analyze_clicked inp then
        run_analyze_audio clk {| session := st1; log := (log s ++ l)%list |}
      else if truthy results then
        display_analysis_results inp
          {| session := st1; log := (log s ++ l)%list |}
      else ({| session := st1; log := (log s ++ l)%list |}, Ok tt).
Proof.
  intros Haf Har. destruct s as [st lg].
  destruct inp as [pg rec up ac aa ss vh sc sv].
  cbn [session log] in Haf, Har.
  unfold record_analyze_page, chosen_audio. script_unfold.
  cbn [uploaded_file audio_recording analyze_clicked].
  destruct up as [u|], rec as [r|]; cbv beta iota;
    rewrite ?lookup_insert_eq, ?Haf; cbv beta iota.
  4: destruct stored; cbv beta iota.
  all: cbn [negb is_none andb].
  all: destruct ac; cbv beta iota.
  all: rewrite ?lookup_insert_ne, ?Har by done; cbv beta iota.
  all: try destruct (truthy results); cbv beta iota.
  all: close_page_case lg.
Qed.

Lemma run_analyze_audio_run clk (s : store) :
  run_analyze_audio clk s =
    ({| session :=
          <["current_session" :=
              VStr ("session_" +:+ strftime_session (at_analysis clk))]>
            (<["analysis_results" := placeholder_results]> (session s));
        log := (log s ++ (Eff <$> effects
                  (analyze_audio (at_analysis clk)
                     {| state := session s; effects := [] |})))%list |},
     Err RerunRequested).
Proof. reflexivity. Qed.

(** A run on the recording page, split at the sidebar. *)
Lemma run_record_page inp clk (st : gmap string value) :
  page inp = "Record & Analyze" →
  ∃ ls, run inp clk st =
          record_analyze_page inp clk
            {| session := init_session_state st; log := ls |} ∧
        (∀ fn args, Ui fn args ∈ ls → String.prefix "sidebar." fn = true) ∧
        (∀ e, Eff e ∉ ls).
Proof.
  intros Hpage. rewrite run_unfold. unfold navigate.
  destruct (init_session_state_present st "current_session") as [v Hv];
    [unfold managed_keys; set_solver|].
  destruct (sidebar_navigation_run inp clk
              {| session := init_session_state st; log := [] |} v Hv)
    as (l & Hrun & _ & _ & Hui & Heff).
  rewrite (bind_run _ _ _ _ _ Hrun), bool_decide_true by done.
  exists l. by split.
Qed.

(** X5. On the recording page, a click on "Analyze Speech" with an audio
    file present (just recorded, just uploaded or stored earlier) stores the
    placeholder results and a new session identifier, keeps the chosen
    audio, and ends the run with a rerun request before the results section
    is rendered. *)
Theorem analyze_click_stores_and_reruns inp clk (st : gmap string value)
    (stored : value) :
  page inp = "Record & Analyze" →
  analyze_clicked inp = true →
  init_session_state st !! "audio_file" = Some stored →
  is_none (chosen_audio inp stored) = false →
  (run inp clk st).2 = Err RerunRequested ∧
  session (run inp clk st).1 !! "analysis_results"
    = Some placeholder_results ∧
  session (run inp clk st).1 !! "current_session"
    = Some (VStr ("session_" +:+ strftime_session (at_analysis clk))) ∧
  session (run inp clk st).1 !! "audio_file"
    = Some (chosen_audio inp stored) ∧
  results_header ∉ log (run inp clk st).1.
Proof.
  intros Hpage Hclick Hstored Hsome.
  destruct (run_record_page inp clk st Hpage) as (ls & -> & Hui & Heff).
  destruct (init_session_state_present st "analysis_results") as [res Hres];
    [unfold managed_keys; set_solver|].
  destruct (record_analyze_page_run inp clk
              {| session := init_session_state st; log := ls |} stored res
              Hstored Hres) as (st1 & l & Haf & Hother & Hl & ->).
  rewrite Hsome, Hclick. cbn [negb andb].
  rewrite run_analyze_audio_run. cbn [fst snd session log].
  split; [done|]. split; [by simplify_map_eq|]. split; [by simplify_map_eq|].
  split; [by simplify_map_eq|].
  rewrite !elem_of_app. intros [[Hin|Hin]|Hin].
  - apply Hui in Hin. discriminate.
  - rewrite Forall_forall in Hl. by destruct (Hl _ Hin).
  - apply list_elem_of_fmap in Hin as (e & He & _). discriminate.
Qed.

Lemma analyze_click_stores_and_reruns_witness :
  (run {| page := "Record & Analyze";
          audio_recording := Some [Byte.x52]; uploaded_file := None;
          analyze_clicked := true; analyze_another_clicked := false;
          save_session_clicked := false; view_history_clicked := false;
          selected_category := "Behavioral";
          save_settings_clicked := false |} at_noon ∅).2
    = Err RerunRequested.
Proof.
  eapply (analyze_click_stores_and_reruns _ at_noon ∅ VNone).
  - reflexivity.
  - reflexivity.
  - reflexivity.
  - reflexivity.
Defined.
